(** * Binance exchange subclass: a shallow embedding of
      [freqtrade/exchange/binance.py] and the properties of its operations.

    Python values are embedded as follows.
    - [float] is IEEE binary64, i.e. the kernel's primitive [float]; products
      and comparisons are [PrimFloat.mul], [PrimFloat.leb], [PrimFloat.ltb].
    - [int] is [Z].
    - [Dict] is [gmap string pyval]; a missing key of a subscript raises
      [KeyError], [.get(k, d)] falls back to [d].
    - A method that talks to a collaborator is a computation [M A]: it
      receives the state of the world behind the transport and returns an
      outcome (a value or a raised exception), the collaborator invocations
      and log records it produced, in order, and the new state. *)

From Stdlib Require Import Floats ZArith List Lia.
From stdpp Require Import base option list strings gmap.

Local Open Scope string_scope.
Local Open Scope list_scope.

(** ** Python values *)

#[local] Unset Elimination Schemes.
Inductive pyval : Type :=
| PyNone
| PyBool (b : bool)
| PyFloat (f : float)
| PyStr (s : string)
| PyDict (d : gmap string pyval).
#[local] Set Elimination Schemes.

Abbreviation Dict := (gmap string pyval).

(** ** Exceptions *)

(** The exception classes of the ccxt library that the handlers of this
    file name, with some of their subclasses, and the direct base class of
    each (ccxt/base/errors.py). *)
Module ccxt.

Inductive error_class : Type :=
| BaseError
| ExchangeError
| AuthenticationError
| BadRequest
| InsufficientFunds
| InvalidOrder
| OrderNotFound
| NotSupported
| NetworkError
| DDoSProtection
| RateLimitExceeded
| ExchangeNotAvailable
| RequestTimeout.

#[global] Instance error_class_eq_dec : EqDecision error_class.
Proof. solve_decision. Defined.

Definition base_class (c : error_class) : option error_class :=
  match c with
  | BaseError => None
  | ExchangeError | NetworkError => Some BaseError
  | AuthenticationError | BadRequest | InsufficientFunds | InvalidOrder
  | NotSupported => Some ExchangeError
  | OrderNotFound => Some InvalidOrder
  | DDoSProtection | ExchangeNotAvailable | RequestTimeout => Some NetworkError
  | RateLimitExceeded => Some DDoSProtection
  end.

(** The class itself followed by its ancestors; the hierarchy has depth 4. *)
Fixpoint mro (depth : nat) (c : error_class) : list error_class :=
  c :: match depth with
       | O => []
       | S n => match base_class c with
                | Some p => mro n p
                | None => []
                end
       end.

Definition issubclass (c d : error_class) : bool :=
  bool_decide (d ∈ mro 4 c).

Definition class_name (c : error_class) : string :=
  match c with
  | BaseError => "BaseError"
  | ExchangeError => "ExchangeError"
  | AuthenticationError => "AuthenticationError"
  | BadRequest => "BadRequest"
  | InsufficientFunds => "InsufficientFunds"
  | InvalidOrder => "InvalidOrder"
  | OrderNotFound => "OrderNotFound"
  | NotSupported => "NotSupported"
  | NetworkError => "NetworkError"
  | DDoSProtection => "DDoSProtection"
  | RateLimitExceeded => "RateLimitExceeded"
  | ExchangeNotAvailable => "ExchangeNotAvailable"
  | RequestTimeout => "RequestTimeout"
  end.

(** An exception object of the library: its class and its message. *)
Record error : Type := Error { cls : error_class; text : string }.

End ccxt.

(** The exception classes imported from [freqtrade.exceptions]. *)
Inductive ft_class : Type :=
| OperationalException
| InsufficientFundsError
| InvalidOrderException
| DDosProtection
| TemporaryError.

#[global] Instance ft_class_eq_dec : EqDecision ft_class.
Proof. solve_decision. Defined.

(** The argument a freqtrade exception is built with.  The f-strings of
    [stoploss] interpolate the order type, the pair, the (normalized) amount
    and rate and the ccxt exception; they are kept as structured data, the
    rendering of a float as text is not modelled. *)
Inductive message : Type :=
| Text (s : string)
| CreateFailed (head ordertype pair : string) (amount rate : float)
               (e : ccxt.error)
| PlaceFailed (class_name : string) (e : ccxt.error)
| OfError (e : ccxt.error).

(** Builtin exceptions raised by the Python operations used in this file. *)
Inductive builtin_class : Type := KeyError | ValueError | TypeError.

Inductive exception : Type :=
| Ccxt (e : ccxt.error)
| Builtin (c : builtin_class)
| Freqtrade (k : ft_class) (m : message) (cause : option ccxt.error).

Inductive outcome (A : Type) : Type :=
| Return (a : A)
| Raise (e : exception).
Arguments Return {A} a.
Arguments Raise {A} e.

(** ** Collaborator invocations and log records *)

(** Keyword arguments of [self._api.create_order]. *)
Record order_request : Type := OrderRequest {
  rq_symbol : string;
  rq_type : string;
  rq_side : string;
  rq_amount : float;
  rq_price : float;
  rq_params : Dict
}.

Inductive log_arg : Type :=
| LStr (s : string)
| LFloat (f : float)
| LErr (e : ccxt.error).

Inductive event : Type :=
| EvPriceToPrecision (pair : string) (price : float)
| EvAmountToPrecision (pair : string) (amount : float)
| EvDryRunOrder (pair ordertype side : string) (amount rate : float)
| EvCreateOrder (req : order_request)
| EvSapi (endpoint : string) (payload : option Dict)
| EvBaseFetchL2OrderBook (pair : string) (limit : Z)
| EvLogInfo (fmt : string) (args : list log_arg)
| EvLogWarning (fmt : string) (args : list log_arg).

Definition is_create_order (ev : event) : bool :=
  match ev with EvCreateOrder _ => true | _ => false end.

Definition is_transport_call (ev : event) : bool :=
  match ev with
  | EvCreateOrder _ | EvSapi _ _ | EvBaseFetchL2OrderBook _ _ => true
  | _ => false
  end.

Definition is_warning (ev : event) : bool :=
  match ev with EvLogWarning _ _ => true | _ => false end.

(** ** Computations *)

Section Monad.
Context {X : Type}.

Definition M (A : Type) : Type := X -> outcome A * list event * X.

Definition ret {A} (a : A) : M A := fun x => (Return a, [], x).

Definition raise {A} (e : exception) : M A := fun x => (Raise e, [], x).

Definition bind {A B} (m : M A) (f : A -> M B) : M B :=
  fun x =>
    match m x with
    | (Return a, t, x') =>
        match f a x' with (r, t', x'') => (r, t ++ t', x'') end
    | (Raise e, t, x') => (Raise e, t, x')
    end.

(** [try: m  except ... as e: h e]; a handler that matches no clause
    re-raises [e]. *)
Definition try_except {A} (m : M A) (h : exception -> M A) : M A :=
  fun x =>
    match m x with
    | (Return a, t, x') => (Return a, t, x')
    | (Raise e, t, x') =>
        match h e x' with (r, t', x'') => (r, t ++ t', x'') end
    end.

Definition emit (ev : event) : M unit := fun x => (Return tt, [ev], x).

(** A call of a collaborator that may change the world or raise,
    recorded as [ev]. *)
Definition call {A} (ev : event) (f : X -> outcome A * X) : M A :=
  fun x => match f x with (r, x') => (r, [ev], x') end.

(** A call of a pure helper, recorded as [ev]. *)
Definition pure_call {A} (ev : event) (a : A) : M A :=
  fun x => (Return a, [ev], x).

Definition lift {A} (r : outcome A) : M A := fun x => (r, [], x).
End Monad.
Arguments M X A : clear implicits.

Notation "'let!' x ':=' m 'in' k" := (bind m (fun x => k))
  (at level 10, x name, m at level 100, k at level 200).
Notation "m ;; k" := (bind m (fun _ => k))
  (at level 100, right associativity).

(** ** Python operations on values *)

(** The literal [0.99]: the binary64 value nearest to it. *)
Definition default_limit_ratio : float := 0x1.fae147ae147aep-1%float.

Definition truthy (v : pyval) : bool :=
  match v with
  | PyNone => false
  | PyBool b => b
  | PyFloat f => negb (PrimFloat.eqb f 0)
  | PyStr s => negb (String.eqb s "")
  | PyDict d => negb (Nat.eqb (size d) 0)
  end.

(** [d[k]] *)
Definition getitem (d : Dict) (k : string) : outcome pyval :=
  match d !! k with
  | Some v => Return v
  | None => Raise (Builtin KeyError)
  end.

(** [v[k]] for a value that need not be a dict *)
Definition subscript (v : pyval) (k : string) : outcome pyval :=
  match v with
  | PyDict d => getitem d k
  | _ => Raise (Builtin TypeError)
  end.

(** [d.get(k, dflt)] *)
Definition dict_get (d : Dict) (k : string) (dflt : pyval) : pyval :=
  default dflt (d !! k).

(** [v == s] for a string literal [s] *)
Definition eq_str (v : pyval) (s : string) : bool :=
  match v with
  | PyStr t => String.eqb t s
  | _ => false
  end.

Definition float_of_bool (b : bool) : float := if b then 1%float else 0%float.

(** [x * v] for a float [x] *)
Definition float_mul (x : float) (v : pyval) : outcome float :=
  match v with
  | PyFloat f => Return (PrimFloat.mul x f)
  | PyBool b => Return (PrimFloat.mul x (float_of_bool b))
  | _ => Raise (Builtin TypeError)
  end.

(** [min(l)] *)
Definition py_min (l : list Z) : outcome Z :=
  match l with
  | [] => Raise (Builtin ValueError)
  | x :: l => Return (fold_left Z.min l x)
  end.

Definition obind {A B} (r : outcome A) (f : A -> outcome B) : outcome B :=
  match r with
  | Return a => f a
  | Raise e => Raise e
  end.

(** ** The exchange object *)

(** The methods of [self._api] (the ccxt client) that this file calls.  Each
    may change the state behind the transport and may raise. *)
Record Api (X : Type) : Type := {
  create_order : order_request -> X -> outcome pyval * X;
  sapi_get_margin_isolated_account : X -> outcome pyval * X;
  sapi_post_margin_isolated_create : Dict -> X -> outcome pyval * X;
  sapi_post_margin_isolated_transfer : Dict -> X -> outcome pyval * X;
  sapi_get_margin_maxborrowable : Dict -> X -> outcome pyval * X
}.
Arguments create_order {X} _ _ _.
Arguments sapi_get_margin_isolated_account {X} _ _.
Arguments sapi_post_margin_isolated_create {X} _ _ _.
Arguments sapi_post_margin_isolated_transfer {X} _ _ _.
Arguments sapi_get_margin_maxborrowable {X} _ _ _.

(** What [Binance] reads of [self]: attributes and methods inherited from
    the base class [Exchange], which is not part of this file. *)
Record Exchange (X : Type) : Type := {
  _config : Dict;
  _params : Dict;
  _api : Api X;
  price_to_precision : string -> float -> float;
  amount_to_precision : string -> float -> float;
  base_fetch_l2_order_book : string -> Z -> X -> outcome pyval * X
}.
Arguments _config {X} _.
Arguments _params {X} _.
Arguments _api {X} _.
Arguments price_to_precision {X} _ _ _.
Arguments amount_to_precision {X} _ _ _.
Arguments base_fetch_l2_order_book {X} _ _ _ _.

(** Modelled from the spec: [Exchange.dry_run_order] is a method of the base
    class, which is not among the sources.  The spec describes the dry-run
    recorder as pure data construction of a synthetic record
    (pair, side, type, amount, price), with no I/O. *)
Definition dry_run_order (pair ordertype side : string)
    (amount rate : float) : pyval :=
  PyDict (<["pair" := PyStr pair]>
         (<["type" := PyStr ordertype]>
         (<["side" := PyStr side]>
         (<["amount" := PyFloat amount]>
         (<["price" := PyFloat rate]> ∅))))).

(** The first two statements of [stoploss]: the limit price before it is
    normalized.
    Limit price threshold: As limit price should always be below stop-price *)
Definition stoploss_rate (stop_price : float) (order_types : Dict)
    : outcome float :=
  let limit_price_pct :=
    dict_get order_types "stoploss_on_exchange_limit_ratio"
             (PyFloat default_limit_ratio) in
  float_mul stop_price limit_price_pct.

Section Binance.
Context {X : Type}.

(** The builtin [float(s)] on a string: [None] when it raises
    [ValueError]. *)
Variable float_of_str : string -> option float.

(** [float(v)] *)
Definition py_float (v : pyval) : outcome float :=
  match v with
  | PyFloat f => Return f
  | PyBool b => Return (float_of_bool b)
  | PyStr s => match float_of_str s with
               | Some f => Return f
               | None => Raise (Builtin ValueError)
               end
  | PyNone | PyDict _ => Raise (Builtin TypeError)
  end.

Variable self : Exchange X.

Definition fetch_l2_order_book (pair : string) (limit : Z) : M X pyval :=
  let limit_range := [5; 10; 20; 50; 100; 500; 1000]%Z in
  (* get next-higher step in the limit_range list *)
  let! limit :=
    lift (py_min (List.filter (fun x => (limit <=? x)%Z) limit_range)) in
  call (EvBaseFetchL2OrderBook pair limit)
       (base_fetch_l2_order_book self pair limit).

Definition stoploss_adjust (stop_loss : float) (order : Dict)
    : outcome bool :=
  obind (getitem order "type") (fun ty =>
  if eq_str ty "stop_loss_limit" then
    obind (getitem order "info") (fun info =>
    obind (subscript info "stopPrice") (fun sp =>
    obind (py_float sp) (fun p =>
    Return (PrimFloat.ltb p stop_loss))))
  else Return false).

(** The [except] clauses of [stoploss], in source order.  [amount] and
    [rate] are the variables as rebound inside the [try] block. *)
Definition stoploss_except (ordertype pair : string) (amount rate : float)
    (e : exception) : M X pyval :=
  match e with
  | Ccxt err =>
      if ccxt.issubclass (ccxt.cls err) ccxt.InsufficientFunds then
        raise (Freqtrade InsufficientFundsError
                 (CreateFailed "Insufficient funds to create"
                    ordertype pair amount rate err) (Some err))
      else if ccxt.issubclass (ccxt.cls err) ccxt.InvalidOrder then
        raise (Freqtrade InvalidOrderException
                 (CreateFailed "Could not create"
                    ordertype pair amount rate err) (Some err))
      else if ccxt.issubclass (ccxt.cls err) ccxt.DDoSProtection then
        raise (Freqtrade DDosProtection (OfError err) (Some err))
      else if ccxt.issubclass (ccxt.cls err) ccxt.NetworkError
              || ccxt.issubclass (ccxt.cls err) ccxt.ExchangeError then
        raise (Freqtrade TemporaryError
                 (PlaceFailed (ccxt.class_name (ccxt.cls err)) err)
                 (Some err))
      else if ccxt.issubclass (ccxt.cls err) ccxt.BaseError then
        raise (Freqtrade OperationalException (OfError err) (Some err))
      else raise e
  | _ => raise e
  end.

(** The body of [stoploss], without its decorator.  The statements of the
    [try] block that precede [create_order] (copying the parameters and
    the two normalizations) cannot raise here, so the protected region
    starts at the transport call. *)
Definition stoploss (pair : string) (amount stop_price : float)
    (order_types : Dict) : M X pyval :=
  let! rate := lift (stoploss_rate stop_price order_types) in
  let ordertype := "stop_loss_limit" in
  let! stop_price :=
    pure_call (EvPriceToPrecision pair stop_price)
              (price_to_precision self pair stop_price) in
  (* Ensure rate is less than stop price *)
  if PrimFloat.leb stop_price rate then
    raise (Freqtrade OperationalException
             (Text "In stoploss limit order, stop price should be more than limit price")
             None)
  else
    let! dry_run := lift (getitem (_config self) "dry_run") in
    if truthy dry_run then
      pure_call (EvDryRunOrder pair ordertype "sell" amount stop_price)
                (dry_run_order pair ordertype "sell" amount stop_price)
    else
      let params := <["stopPrice" := PyFloat stop_price]> (_params self) in
      let! amount :=
        pure_call (EvAmountToPrecision pair amount)
                  (amount_to_precision self pair amount) in
      let! rate :=
        pure_call (EvPriceToPrecision pair rate)
                  (price_to_precision self pair rate) in
      try_except
        (let req := {| rq_symbol := pair; rq_type := ordertype;
                       rq_side := "sell"; rq_amount := amount;
                       rq_price := rate; rq_params := params |} in
         let! order :=
           call (EvCreateOrder req) (create_order (_api self) req) in
         emit (EvLogInfo
                 "stoploss limit order added for %s. stop price: %s. limit: %s"
                 [LStr pair; LFloat stop_price; LFloat rate]) ;;
         ret order)
        (stoploss_except ordertype pair amount rate).

(** The handler shared by the four margin operations:
    [except ccxt.BaseError as e: logger.warning(...)], after which the
    function ends and so returns [None]. *)
Definition margin_except (e : exception) : M X pyval :=
  match e with
  | Ccxt err =>
      if ccxt.issubclass (ccxt.cls err) ccxt.BaseError then
        emit (EvLogWarning
                "Unable to get isolated margin account info. Reason: %s"
                [LErr err]) ;;
        ret PyNone
      else raise e
  | _ => raise e
  end.

Definition get_isolated_margin_account : M X pyval :=
  try_except
    (call (EvSapi "sapi_get_margin_isolated_account" None)
          (sapi_get_margin_isolated_account (_api self)))
    margin_except.

Definition create_isolated_margin_account (base quote : string) : M X pyval :=
  let payload : Dict :=
    <["base" := PyStr base]> (<["quote" := PyStr quote]> ∅) in
  try_except
    (call (EvSapi "sapi_post_margin_isolated_create" (Some payload))
          (sapi_post_margin_isolated_create (_api self) payload))
    margin_except.

Definition isolated_margin_transfer (asset symbol transFrom transTo : string)
    (amount : float) : M X pyval :=
  let payload : Dict :=
    <["asset" := PyStr asset]>
    (<["symbol" := PyStr symbol]>
    (<["transFrom" := PyStr transFrom]>
    (<["transTo" := PyStr transTo]>
    (<["amount" := PyFloat amount]> ∅)))) in
  try_except
    (call (EvSapi "sapi_post_margin_isolated_transfer" (Some payload))
          (sapi_post_margin_isolated_transfer (_api self) payload))
    margin_except.

Definition query_max_borrow (asset isolatedSymbol : string) : M X pyval :=
  let payload : Dict :=
    <["asset" := PyStr asset]>
    (<["isolatedSymbol" := PyStr isolatedSymbol]> ∅) in
  try_except
    (call (EvSapi "sapi_get_margin_maxborrowable" (Some payload))
          (sapi_get_margin_maxborrowable (_api self) payload))
    margin_except.

(** The failures the retry wrapper retries; left open. *)
Variable retryable : exception -> bool.

(** Modelled from the spec: the decorator [retrier] is defined in
    [freqtrade.exchange.common], which is not among the sources.  The spec
    describes it as a generic automatic-retry wrapper with a number of
    automatic retries: a failed run that is retryable is run again while
    retries remain. *)
Fixpoint retrier {A} (retries : nat) (f : M X A) : M X A :=
  fun x =>
    match f x with
    | (Return a, t, x') => (Return a, t, x')
    | (Raise e, t, x') =>
        if retryable e then
          match retries with
          | O => (Raise e, t, x')
          | S n => match retrier n f x' with
                   | (r, t', x'') => (r, t ++ t', x'')
                   end
          end
        else (Raise e, t, x')
    end.

(** [@retrier(retries=0)  def stoploss(...)] *)
Definition stoploss_decorated (pair : string) (amount stop_price : float)
    (order_types : Dict) : M X pyval :=
  retrier 0 (stoploss pair amount stop_price order_types).

End Binance.

(** ** A concrete exchange, for evaluating the operations *)

Module Demo.

(** The state behind the transport: the number of requests received. *)
Definition world : Type := nat.

(** Rounding to tick size 1 (to the nearest integer, for magnitudes below
    2^52). *)
Definition round_tick (x : float) : float :=
  (x + 4503599627370496 - 4503599627370496)%float.

Definition ack (req : order_request) : pyval :=
  PyDict (<["id" := PyStr "12345"]>
         (<["price" := PyFloat (rq_price req)]>
         (<["amount" := PyFloat (rq_amount req)]> ∅))).

(** A transport that accepts every request. *)
Definition accepting : Api world := {|
  create_order := fun req n => (Return (ack req), S n);
  sapi_get_margin_isolated_account := fun n => (Return (PyDict ∅), S n);
  sapi_post_margin_isolated_create := fun _ n => (Return (PyDict ∅), S n);
  sapi_post_margin_isolated_transfer := fun _ n => (Return (PyDict ∅), S n);
  sapi_get_margin_maxborrowable := fun _ n => (Return (PyDict ∅), S n)
|}.

(** A transport whose every call raises the ccxt exception [err]. *)
Definition failing (err : ccxt.error) : Api world := {|
  create_order := fun _ n => (Raise (Ccxt err), S n);
  sapi_get_margin_isolated_account := fun n => (Raise (Ccxt err), S n);
  sapi_post_margin_isolated_create := fun _ n => (Raise (Ccxt err), S n);
  sapi_post_margin_isolated_transfer := fun _ n => (Raise (Ccxt err), S n);
  sapi_get_margin_maxborrowable := fun _ n => (Raise (Ccxt err), S n)
|}.

Definition exchange (dry_run : bool) (api : Api world) : Exchange world := {|
  _config := {[ "dry_run" := PyBool dry_run ]};
  _params := ∅;
  _api := api;
  price_to_precision := fun _ p => round_tick p;
  amount_to_precision := fun _ a => round_tick a;
  base_fetch_l2_order_book := fun _ _ n => (Return (PyDict ∅), S n)
|}.

Definition timeout : ccxt.error :=
  ccxt.Error ccxt.RequestTimeout "binance request timed out".

Definition always (_ : exception) : bool := true.

Definition ratio (r : float) : Dict :=
  {[ "stoploss_on_exchange_limit_ratio" := PyFloat r ]}.

(** The builtin [float] on the strings used below. *)
Definition float_of_str (s : string) : option float :=
  if String.eqb s "190.0" then Some 190%float
  else if String.eqb s "220.5" then Some 220.5%float
  else None.

(** An order as the exchange reports it: its type and, in the raw
    response, the stop price as text. *)
Definition order (ty stop : string) : Dict :=
  <["type" := PyStr ty]>
  (<["info" := PyDict {[ "stopPrice" := PyStr stop ]}]> ∅).

End Demo.


(** ** The error kinds of the specification *)

Module Spec.

(** The failure kinds the specification names for [placeStopLoss]: the kind
    of a failed precondition check, and the five kinds of its
    classification table. *)
Inductive error_kind : Type :=
| Validation
| InsufficientFunds
| InvalidOrder
| DDosProtection
| Temporary
| Operational.

End Spec.

(** Each exception class of [freqtrade.exceptions] is the kind the
    classification table names after it. *)
Definition kind_of (k : ft_class) : Spec.error_kind :=
  match k with
  | OperationalException => Spec.Operational
  | InsufficientFundsError => Spec.InsufficientFunds
  | InvalidOrderException => Spec.InvalidOrder
  | DDosProtection => Spec.DDosProtection
  | TemporaryError => Spec.Temporary
  end.

(** The exception raised by the check [stop_price <= rate]. *)
Definition stop_below_limit : exception :=
  Freqtrade OperationalException
    (Text "In stoploss limit order, stop price should be more than limit price")
    None.

(** The request the specification describes: a sell-side stop-limit order
    whose trigger is the normalized stop price and whose resting limit is
    the normalized limit price, for the normalized amount. *)
Definition stop_limit_sell_request {X} (self : Exchange X) (pair : string)
    (amount stop_price rate : float) : order_request :=
  {| rq_symbol := pair;
     rq_type := "stop_loss_limit";
     rq_side := "sell";
     rq_amount := amount_to_precision self pair amount;
     rq_price := price_to_precision self pair rate;
     rq_params :=
       <["stopPrice" := PyFloat (price_to_precision self pair stop_price)]>
         (_params self) |}.

(** The record logged after a successful placement. *)
Definition stoploss_added {X} (self : Exchange X) (pair : string)
    (stop_price rate : float) : event :=
  EvLogInfo "stoploss limit order added for %s. stop price: %s. limit: %s"
    [LStr pair; LFloat (price_to_precision self pair stop_price);
     LFloat (price_to_precision self pair rate)].

(** The events of the live path up to and including the transport call. *)
Definition live_prefix {X} (self : Exchange X) (pair : string)
    (amount stop_price rate : float) : list event :=
  [EvPriceToPrecision pair stop_price;
   EvAmountToPrecision pair amount;
   EvPriceToPrecision pair rate;
   EvCreateOrder (stop_limit_sell_request self pair amount stop_price rate)].

(** The number of order-placement requests among the events of a run. *)
Definition order_requests {X A} (r : outcome A * list event * X) : nat :=
  length (List.filter is_create_order r.1.2).

(** ** More concrete exchanges *)

Module Exact.

(** A transport whose every call raises the exception [e], whatever its
    class. *)
Definition raising (e : exception) : Api Demo.world := {|
  create_order := fun _ n => (Raise e, S n);
  sapi_get_margin_isolated_account := fun n => (Raise e, S n);
  sapi_post_margin_isolated_create := fun _ n => (Raise e, S n);
  sapi_post_margin_isolated_transfer := fun _ n => (Raise e, S n);
  sapi_get_margin_maxborrowable := fun _ n => (Raise e, S n)
|}.

(** An exchange whose markets set no precision: prices and amounts are left
    as they are. *)
Definition exchange (config : Dict) (api : Api Demo.world)
    : Exchange Demo.world := {|
  _config := config;
  _params := ∅;
  _api := api;
  price_to_precision := fun _ p => p;
  amount_to_precision := fun _ a => a;
  base_fetch_l2_order_book := fun _ _ n => (Return (PyDict ∅), S n)
|}.

Definition live : Dict := {[ "dry_run" := PyBool false ]}.

End Exact.

(** The order requests among the events of a run. *)
Definition requests_of (t : list event) : list order_request :=
  omap (fun ev => match ev with EvCreateOrder req => Some req | _ => None end)
       t.

(** The depths forwarded to the base [fetch_l2_order_book] among the events
    of a run. *)
Definition depths_of (t : list event) : list Z :=
  omap (fun ev => match ev with
                  | EvBaseFetchL2OrderBook _ limit => Some limit
                  | _ => None
                  end) t.

(** ** Stepping through [stoploss] *)

Section StoplossSteps.
Context {X : Type}.
Variable self : Exchange X.
Variables (pair : string) (amount stop_price rate : float).
Variable order_types : Dict.
Hypothesis Hrate : stoploss_rate stop_price order_types = Return rate.

Lemma stoploss_rejected (x : X) :
  PrimFloat.leb (price_to_precision self pair stop_price) rate = true ->
  stoploss self pair amount stop_price order_types x
  = (Raise stop_below_limit, [EvPriceToPrecision pair stop_price], x).
Proof.
  intros Hle. unfold stoploss, bind, lift, pure_call, raise.
  rewrite Hrate. cbn. rewrite Hle. reflexivity.
Qed.

Lemma stoploss_dry (x : X) (v : pyval) :
  PrimFloat.leb (price_to_precision self pair stop_price) rate = false ->
  _config self !! "dry_run" = Some v ->
  truthy v = true ->
  stoploss self pair amount stop_price order_types x
  = (Return (dry_run_order pair "stop_loss_limit" "sell" amount
               (price_to_precision self pair stop_price)),
     [EvPriceToPrecision pair stop_price;
      EvDryRunOrder pair "stop_loss_limit" "sell" amount
        (price_to_precision self pair stop_price)],
     x).
Proof.
  intros Hle Hcfg Hdry. unfold stoploss, bind, lift, pure_call, getitem.
  rewrite Hrate. cbn. rewrite Hle, Hcfg. cbn. rewrite Hdry. reflexivity.
Qed.

Lemma stoploss_live (x : X) (v : pyval) :
  PrimFloat.leb (price_to_precision self pair stop_price) rate = false ->
  _config self !! "dry_run" = Some v ->
  truthy v = false ->
  stoploss self pair amount stop_price order_types x
  = match create_order (_api self)
            (stop_limit_sell_request self pair amount stop_price rate) x with
    | (Return order, x') =>
        (Return order,
         live_prefix self pair amount stop_price rate
           ++ [stoploss_added self pair stop_price rate], x')
    | (Raise e, x') =>
        match stoploss_except "stop_loss_limit" pair
                (amount_to_precision self pair amount)
                (price_to_precision self pair rate) e x' with
        | (r, t, x'') =>
            (r, live_prefix self pair amount stop_price rate ++ t, x'')
        end
    end.
Proof.
  intros Hle Hcfg Hdry.
  unfold stoploss, bind, lift, pure_call, getitem, try_except, call, emit,
    ret.
  rewrite Hrate. cbn. rewrite Hle, Hcfg. cbn. rewrite Hdry.
  fold (stop_limit_sell_request self pair amount stop_price rate).
  destruct (create_order _ _ x) as [[order | e] x']; cbn; [reflexivity |].
  destruct (stoploss_except _ _ _ _ e x') as [[r t] x'']. reflexivity.
Qed.
End StoplossSteps.

(** ** Facts about the handlers and the retry wrapper *)

Lemma issubclass_BaseError (c : ccxt.error_class) :
  ccxt.issubclass c ccxt.BaseError = true.
Proof. destruct c; reflexivity. Qed.

(** A handler of [stoploss] calls no collaborator and always raises. *)
Lemma stoploss_except_raises {X} (ordertype pair : string)
    (amount rate : float) (e : exception) (x : X) :
  exists e', stoploss_except ordertype pair amount rate e x = (Raise e', [], x).
Proof.
  unfold stoploss_except, raise.
  destruct e as [err | c | k m c]; eauto.
  repeat match goal with
         | |- context [if ?b then _ else _] => destruct b
         end; eauto.
Qed.

(** With zero retries the wrapper runs the function once, whatever the
    failures it would retry. *)
Lemma retrier_zero {X A} (retryable : exception -> bool) (f : M X A) (x : X) :
  retrier retryable 0 f x = f x.
Proof.
  unfold retrier. destruct (f x) as [[[a | e] t] x']; [reflexivity |].
  destruct (retryable e); reflexivity.
Qed.

(** The handler of the margin operations turns a ccxt failure into one
    warning and the result [None]. *)
Lemma margin_call_failure {X} (ev : event) (f : X -> outcome pyval * X)
    (err : ccxt.error) (x x' : X) :
  f x = (Raise (Ccxt err), x') ->
  try_except (call ev f) margin_except x
  = (Return PyNone,
     [ev; EvLogWarning "Unable to get isolated margin account info. Reason: %s"
            [LErr err]],
     x').
Proof.
  intros Hf. unfold try_except, call, margin_except. rewrite Hf.
  rewrite issubclass_BaseError. reflexivity.
Qed.

(** The body of [stoploss] issues at most one order-placement request. *)
Lemma stoploss_order_requests {X} (self : Exchange X) (pair : string)
    (amount stop_price : float) (order_types : Dict) (x : X) :
  order_requests (stoploss self pair amount stop_price order_types x) <= 1.
Proof.
  destruct (stoploss_rate stop_price order_types) as [rate | e] eqn:Hrate.
  - destruct (PrimFloat.leb (price_to_precision self pair stop_price) rate)
      eqn:Hle.
    { rewrite (stoploss_rejected self pair amount stop_price rate _ Hrate x Hle).
      cbn. lia. }
    destruct (_config self !! "dry_run") as [v |] eqn:Hcfg.
    + destruct (truthy v) eqn:Hdry.
      { rewrite (stoploss_dry self pair amount stop_price rate _ Hrate x v
                   Hle Hcfg Hdry). cbn. lia. }
      rewrite (stoploss_live self pair amount stop_price rate _ Hrate x v
                 Hle Hcfg Hdry).
      destruct (create_order _ _ x) as [[order | e] x']; [cbn; lia |].
      destruct (stoploss_except_raises "stop_loss_limit" pair
                  (amount_to_precision self pair amount)
                  (price_to_precision self pair rate) e x') as [e' ->].
      cbn. lia.
    + unfold stoploss, bind, lift, pure_call, getitem.
      rewrite Hrate. cbn. rewrite Hle, Hcfg. cbn. lia.
  - unfold stoploss, bind, lift. rewrite Hrate. cbn. lia.
Qed.

(** ** Properties of [stoploss] *)

(** C1 (as amended).  Whenever the precision-normalized stop price is
    [<=] [stop_price * limit_ratio] (in particular for every positive stop
    price and every ratio strictly between 0 and 1 for which that holds),
    [stoploss] fails at once: the only collaborator invoked is the
    normalization of the stop price, so the limit price is not normalized
    and the transport is not called, and the state behind the transport is
    untouched.  The exception is an [OperationalException], i.e. of the
    Operational kind; and under [retrier(retries=0)] the outcome is the
    same single run. *)
Theorem stoploss_validation_failure {X} (self : Exchange X)
    (retryable : exception -> bool) (pair : string)
    (amount stop_price r : float) (order_types : Dict) (x : X) :
  dict_get order_types "stoploss_on_exchange_limit_ratio"
    (PyFloat default_limit_ratio) = PyFloat r ->
  PrimFloat.leb (price_to_precision self pair stop_price)
    (PrimFloat.mul stop_price r) = true ->
  stoploss self pair amount stop_price order_types x
  = (Raise stop_below_limit, [EvPriceToPrecision pair stop_price], x)
  /\ stoploss_decorated self retryable pair amount stop_price order_types x
     = (Raise stop_below_limit, [EvPriceToPrecision pair stop_price], x)
  /\ exists m c,
       stop_below_limit = Freqtrade OperationalException m c
       /\ kind_of OperationalException = Spec.Operational.
Proof.
  intros Hr Hle.
  assert (Hrate : stoploss_rate stop_price order_types
                  = Return (PrimFloat.mul stop_price r)).
  { unfold stoploss_rate. rewrite Hr. reflexivity. }
  pose proof (stoploss_rejected self pair amount stop_price _ _ Hrate x Hle)
    as Hrun.
  split; [exact Hrun |]. split.
  - unfold stoploss_decorated. rewrite retrier_zero. exact Hrun.
  - eexists _, _. split; reflexivity.
Qed.

Lemma stoploss_validation_failure_witness :
  PrimFloat.ltb 0 100.25 = true
  /\ PrimFloat.ltb 0 0.9990234375 = true
  /\ PrimFloat.ltb 0.9990234375 1 = true
  /\ (stoploss (Demo.exchange false Demo.accepting) "ETH/BTC" 1 100.25
        (Demo.ratio 0.9990234375) 0%nat
      = (Raise stop_below_limit, [EvPriceToPrecision "ETH/BTC" 100.25], 0%nat)
      /\ stoploss_decorated (Demo.exchange false Demo.accepting) Demo.always
           "ETH/BTC" 1 100.25 (Demo.ratio 0.9990234375) 0%nat
         = (Raise stop_below_limit, [EvPriceToPrecision "ETH/BTC" 100.25],
            0%nat)
      /\ exists m c,
           stop_below_limit = Freqtrade OperationalException m c
           /\ kind_of OperationalException = Spec.Operational).
Proof.
  split; [reflexivity |]. split; [reflexivity |]. split; [reflexivity |].
  apply (stoploss_validation_failure (Demo.exchange false Demo.accepting)
           Demo.always "ETH/BTC" 1 100.25 0.9990234375
           (Demo.ratio 0.9990234375) 0%nat); reflexivity.
Defined.

(** C1 as stated fails: for the stop price 100.25 and the ratio 1023/1024 on
    a market of tick size 1, the normalized stop price 100 is below the raw
    limit price, and the exception raised is not of a Validation kind: it
    is an [OperationalException], the class the catch-all clause raises. *)
Lemma stoploss_validation_kind_counterexample :
  PrimFloat.ltb 0 100.25 = true
  /\ PrimFloat.ltb 0 0.9990234375 = true
  /\ PrimFloat.ltb 0.9990234375 1 = true
  /\ PrimFloat.leb
       (price_to_precision (Demo.exchange false Demo.accepting) "ETH/BTC"
          100.25)
       (PrimFloat.mul 100.25 0.9990234375) = true
  /\ (stoploss (Demo.exchange false Demo.accepting) "ETH/BTC" 1 100.25
        (Demo.ratio 0.9990234375) 0%nat).1.1
     = Raise (Freqtrade OperationalException
                (Text "In stoploss limit order, stop price should be more than limit price")
                None)
  /\ ~ (exists k m c,
          (stoploss (Demo.exchange false Demo.accepting) "ETH/BTC" 1 100.25
             (Demo.ratio 0.9990234375) 0%nat).1.1
          = Raise (Freqtrade k m c)
          /\ kind_of k = Spec.Validation).
Proof.
  split; [reflexivity |]. split; [reflexivity |]. split; [reflexivity |].
  split; [reflexivity |]. split; [reflexivity |].
  intros (k & m & c & Hrun & Hk).
  change (@Raise pyval stop_below_limit = Raise (Freqtrade k m c)) in Hrun.
  injection Hrun as <- _ _. discriminate Hk.
Qed.

(** C2.  In dry-run mode, when the check passes, [stoploss] invokes only the
    normalization of the stop price and the dry-run recorder: no transport
    call, no normalization of the amount or of the limit price.  It returns
    the recorder's order, whose amount is the caller's amount unchanged and
    whose price is the normalized stop price. *)
Theorem stoploss_dry_run {X} (self : Exchange X) (pair : string)
    (amount stop_price rate : float) (order_types : Dict) (v : pyval)
    (x : X) :
  stoploss_rate stop_price order_types = Return rate ->
  PrimFloat.leb (price_to_precision self pair stop_price) rate = false ->
  _config self !! "dry_run" = Some v ->
  truthy v = true ->
  exists order,
    stoploss self pair amount stop_price order_types x
    = (Return order,
       [EvPriceToPrecision pair stop_price;
        EvDryRunOrder pair "stop_loss_limit" "sell" amount
          (price_to_precision self pair stop_price)],
       x)
    /\ order = dry_run_order pair "stop_loss_limit" "sell" amount
                 (price_to_precision self pair stop_price)
    /\ subscript order "amount" = Return (PyFloat amount)
    /\ subscript order "price"
       = Return (PyFloat (price_to_precision self pair stop_price))
    /\ subscript order "side" = Return (PyStr "sell").
Proof.
  intros Hrate Hle Hcfg Hdry. eexists. split.
  - exact (stoploss_dry self pair amount stop_price rate _ Hrate x v
             Hle Hcfg Hdry).
  - repeat split; reflexivity.
Qed.

Lemma stoploss_dry_run_witness :
  exists order,
    stoploss (Demo.exchange true Demo.accepting) "ETH/BTC" 1.5 100.25 ∅ 0%nat
    = (Return order,
       [EvPriceToPrecision "ETH/BTC" 100.25;
        EvDryRunOrder "ETH/BTC" "stop_loss_limit" "sell" 1.5 100],
       0%nat)
    /\ order = dry_run_order "ETH/BTC" "stop_loss_limit" "sell" 1.5 100
    /\ subscript order "amount" = Return (PyFloat 1.5)
    /\ subscript order "price" = Return (PyFloat 100)
    /\ subscript order "side" = Return (PyStr "sell").
Proof.
  exact (stoploss_dry_run (Demo.exchange true Demo.accepting) "ETH/BTC" 1.5
           100.25 (PrimFloat.mul 100.25 default_limit_ratio) ∅ (PyBool true)
           0%nat eq_refl eq_refl eq_refl eq_refl).
Defined.

(** C8.  The check precedes the dry-run branch: in dry-run mode too, a
    request whose normalized stop price is [<=] the raw limit price fails
    with the exception of the check; the recorder is not invoked and no
    order is returned. *)
Theorem stoploss_dry_run_still_validates {X} (self : Exchange X)
    (pair : string) (amount stop_price rate : float) (order_types : Dict)
    (v : pyval) (x : X) :
  stoploss_rate stop_price order_types = Return rate ->
  PrimFloat.leb (price_to_precision self pair stop_price) rate = true ->
  _config self !! "dry_run" = Some v ->
  truthy v = true ->
  stoploss self pair amount stop_price order_types x
  = (Raise stop_below_limit, [EvPriceToPrecision pair stop_price], x)
  /\ forall order t x',
       stoploss self pair amount stop_price order_types x
       <> (Return order, t, x').
Proof.
  intros Hrate Hle _ _.
  rewrite (stoploss_rejected self pair amount stop_price rate _ Hrate x Hle).
  split; [reflexivity | discriminate].
Qed.

Lemma stoploss_dry_run_still_validates_witness :
  stoploss (Demo.exchange true Demo.accepting) "ETH/BTC" 1 100.25
    (Demo.ratio 0.9990234375) 0%nat
  = (Raise stop_below_limit, [EvPriceToPrecision "ETH/BTC" 100.25], 0%nat)
  /\ forall order t x',
       stoploss (Demo.exchange true Demo.accepting) "ETH/BTC" 1 100.25
         (Demo.ratio 0.9990234375) 0%nat
       <> (Return order, t, x').
Proof.
  exact (stoploss_dry_run_still_validates (Demo.exchange true Demo.accepting)
           "ETH/BTC" 1 100.25 (PrimFloat.mul 100.25 0.9990234375)
           (Demo.ratio 0.9990234375) (PyBool true) 0%nat
           eq_refl eq_refl eq_refl eq_refl).
Defined.

(** C3.  When the transport call of [stoploss] raises a ccxt exception, the
    run ends by raising a freqtrade exception caused by it, of the class
    chosen by the first matching clause: insufficient funds, then invalid
    order, then rate limiting, then any other network or exchange error,
    then anything else of the library.  Nothing more is sent and nothing is
    logged. *)
Theorem stoploss_classifies_ccxt_failure {X} (self : Exchange X)
    (pair : string) (amount stop_price rate : float) (order_types : Dict)
    (v : pyval) (err : ccxt.error) (x x' : X) :
  stoploss_rate stop_price order_types = Return rate ->
  PrimFloat.leb (price_to_precision self pair stop_price) rate = false ->
  _config self !! "dry_run" = Some v ->
  truthy v = false ->
  create_order (_api self)
    (stop_limit_sell_request self pair amount stop_price rate) x
  = (Raise (Ccxt err), x') ->
  exists k m,
    stoploss self pair amount stop_price order_types x
    = (Raise (Freqtrade k m (Some err)),
       live_prefix self pair amount stop_price rate, x')
    /\ (ccxt.issubclass (ccxt.cls err) ccxt.InsufficientFunds = true ->
        k = InsufficientFundsError)
    /\ (ccxt.issubclass (ccxt.cls err) ccxt.InvalidOrder = true ->
        k = InvalidOrderException)
    /\ (ccxt.issubclass (ccxt.cls err) ccxt.DDoSProtection = true ->
        k = DDosProtection)
    /\ (ccxt.issubclass (ccxt.cls err) ccxt.InsufficientFunds = false ->
        ccxt.issubclass (ccxt.cls err) ccxt.InvalidOrder = false ->
        ccxt.issubclass (ccxt.cls err) ccxt.DDoSProtection = false ->
        ccxt.issubclass (ccxt.cls err) ccxt.NetworkError
        || ccxt.issubclass (ccxt.cls err) ccxt.ExchangeError = true ->
        k = TemporaryError)
    /\ (ccxt.issubclass (ccxt.cls err) ccxt.NetworkError = false ->
        ccxt.issubclass (ccxt.cls err) ccxt.ExchangeError = false ->
        k = OperationalException).
Proof.
  intros Hrate Hle Hcfg Hdry Hcreate.
  rewrite (stoploss_live self pair amount stop_price rate _ Hrate x v
             Hle Hcfg Hdry), Hcreate.
  destruct err as [c msg].
  destruct c; cbn; eexists _, _;
    (split; [reflexivity |]);
    repeat split; intros; first [reflexivity | discriminate].
Qed.

Lemma stoploss_classifies_ccxt_failure_witness :
  exists k m,
    stoploss
      (Demo.exchange false
         (Demo.failing (ccxt.Error ccxt.RateLimitExceeded "429")))
      "ETH/BTC" 1 100 ∅ 0%nat
    = (Raise (Freqtrade k m (Some (ccxt.Error ccxt.RateLimitExceeded "429"))),
       live_prefix
         (Demo.exchange false
            (Demo.failing (ccxt.Error ccxt.RateLimitExceeded "429")))
         "ETH/BTC" 1 100 99,
       1%nat)
    /\ k = DDosProtection.
Proof.
  destruct (stoploss_classifies_ccxt_failure
              (Demo.exchange false
                 (Demo.failing (ccxt.Error ccxt.RateLimitExceeded "429")))
              "ETH/BTC" 1 100 99 ∅ (PyBool false)
              (ccxt.Error ccxt.RateLimitExceeded "429") 0%nat 1%nat)
    as (k & m & Hrun & _ & _ & Hddos & _); try reflexivity.
  exists k, m. split; [exact Hrun | exact (Hddos eq_refl)].
Defined.

(** C4.  [stoploss] is wrapped with zero retries: whatever failures the
    wrapper would retry, the decorated function is a single run of the
    body, and one invocation issues at most one order-placement request,
    whether the transport accepts, fails or is never reached. *)
Theorem stoploss_at_most_one_order_request {X} (self : Exchange X)
    (retryable : exception -> bool) (pair : string)
    (amount stop_price : float) (order_types : Dict) (x : X) :
  stoploss_decorated self retryable pair amount stop_price order_types x
  = stoploss self pair amount stop_price order_types x
  /\ order_requests
       (stoploss_decorated self retryable pair amount stop_price
          order_types x) <= 1.
Proof.
  unfold stoploss_decorated. rewrite retrier_zero.
  split; [reflexivity | apply stoploss_order_requests].
Qed.

(** A transport failure that the wrapper would retry: with zero retries one
    request is sent, with two retries three are. *)
Example retries_resend_orders :
  order_requests
    (stoploss_decorated (Demo.exchange false (Demo.failing Demo.timeout))
       Demo.always "ETH/BTC" 1 100 ∅ 0%nat) = 1%nat
  /\ order_requests
       (retrier Demo.always 2
          (stoploss (Demo.exchange false (Demo.failing Demo.timeout))
             "ETH/BTC" 1 100 ∅) 0%nat) = 3%nat.
Proof. split; reflexivity. Qed.

(** C5.  In live mode, when the check passes and the transport accepts the
    order, [stoploss] normalizes the amount and the raw limit price, submits
    one sell-side stop-limit request whose trigger is the normalized stop
    price and whose limit is the normalized limit price, returns the
    acknowledgment of the exchange as it is, and logs the pair, the stop
    price and the limit price.  For the stop price 100 and the default
    ratio the raw limit price is 99. *)
Theorem stoploss_live_success {X} (self : Exchange X) (pair : string)
    (amount stop_price rate : float) (order_types : Dict) (v order : pyval)
    (x x' : X) :
  stoploss_rate stop_price order_types = Return rate ->
  PrimFloat.leb (price_to_precision self pair stop_price) rate = false ->
  _config self !! "dry_run" = Some v ->
  truthy v = false ->
  create_order (_api self)
    (stop_limit_sell_request self pair amount stop_price rate) x
  = (Return order, x') ->
  stoploss self pair amount stop_price order_types x
  = (Return order,
     [EvPriceToPrecision pair stop_price;
      EvAmountToPrecision pair amount;
      EvPriceToPrecision pair rate;
      EvCreateOrder (stop_limit_sell_request self pair amount stop_price rate);
      EvLogInfo "stoploss limit order added for %s. stop price: %s. limit: %s"
        [LStr pair; LFloat (price_to_precision self pair stop_price);
         LFloat (price_to_precision self pair rate)]],
     x')
  /\ rq_side (stop_limit_sell_request self pair amount stop_price rate)
     = "sell"
  /\ rq_type (stop_limit_sell_request self pair amount stop_price rate)
     = "stop_loss_limit"
  /\ rq_amount (stop_limit_sell_request self pair amount stop_price rate)
     = amount_to_precision self pair amount
  /\ rq_price (stop_limit_sell_request self pair amount stop_price rate)
     = price_to_precision self pair rate
  /\ rq_params (stop_limit_sell_request self pair amount stop_price rate)
       !! "stopPrice"
     = Some (PyFloat (price_to_precision self pair stop_price))
  /\ stoploss_rate 100 ∅ = Return 99%float.
Proof.
  intros Hrate Hle Hcfg Hdry Hcreate.
  rewrite (stoploss_live self pair amount stop_price rate _ Hrate x v
             Hle Hcfg Hdry), Hcreate.
  repeat split; try reflexivity.
  cbn. apply lookup_insert_eq.
Qed.

Lemma stoploss_live_success_witness :
  stoploss (Demo.exchange false Demo.accepting) "ETH/BTC" 1 100 ∅ 0%nat
  = (Return
       (Demo.ack
          (stop_limit_sell_request (Demo.exchange false Demo.accepting)
             "ETH/BTC" 1 100 99)),
     [EvPriceToPrecision "ETH/BTC" 100;
      EvAmountToPrecision "ETH/BTC" 1;
      EvPriceToPrecision "ETH/BTC" 99;
      EvCreateOrder
        (stop_limit_sell_request (Demo.exchange false Demo.accepting)
           "ETH/BTC" 1 100 99);
      EvLogInfo "stoploss limit order added for %s. stop price: %s. limit: %s"
        [LStr "ETH/BTC"; LFloat (Demo.round_tick 100);
         LFloat (Demo.round_tick 99)]],
     1%nat)
  /\ rq_amount
       (stop_limit_sell_request (Demo.exchange false Demo.accepting)
          "ETH/BTC" 1 100 99) = Demo.round_tick 1
  /\ rq_price
       (stop_limit_sell_request (Demo.exchange false Demo.accepting)
          "ETH/BTC" 1 100 99) = Demo.round_tick 99.
Proof.
  destruct (stoploss_live_success (Demo.exchange false Demo.accepting)
              "ETH/BTC" 1 100 99 ∅ (PyBool false)
              (Demo.ack
                 (stop_limit_sell_request
                    (Demo.exchange false Demo.accepting) "ETH/BTC" 1 100 99))
              0%nat 1%nat)
    as (Hrun & _ & _ & Hamount & Hprice & _); try reflexivity.
  split; [exact Hrun |]. split; [exact Hamount | exact Hprice].
Defined.

(** ** Properties of the margin operations *)

(** C6.  When the transport call of a margin operation raises a ccxt
    exception, the operation returns [None], logs exactly one warning that
    carries the exception, and raises nothing. *)
Theorem margin_operations_swallow_ccxt_failures {X} (self : Exchange X)
    (err : ccxt.error) (x x' : X) :
  (sapi_get_margin_isolated_account (_api self) x = (Raise (Ccxt err), x') ->
   get_isolated_margin_account self x
   = (Return PyNone,
      [EvSapi "sapi_get_margin_isolated_account" None;
       EvLogWarning "Unable to get isolated margin account info. Reason: %s"
         [LErr err]],
      x'))
  /\ (forall (base quote : string) (payload : Dict),
        payload = <["base" := PyStr base]> (<["quote" := PyStr quote]> ∅) ->
        sapi_post_margin_isolated_create (_api self) payload x
        = (Raise (Ccxt err), x') ->
        create_isolated_margin_account self base quote x
        = (Return PyNone,
           [EvSapi "sapi_post_margin_isolated_create" (Some payload);
            EvLogWarning
              "Unable to get isolated margin account info. Reason: %s"
              [LErr err]],
           x'))
  /\ (forall (asset symbol transFrom transTo : string) (amount : float)
             (payload : Dict),
        payload = <["asset" := PyStr asset]>
                  (<["symbol" := PyStr symbol]>
                  (<["transFrom" := PyStr transFrom]>
                  (<["transTo" := PyStr transTo]>
                  (<["amount" := PyFloat amount]> ∅)))) ->
        sapi_post_margin_isolated_transfer (_api self) payload x
        = (Raise (Ccxt err), x') ->
        isolated_margin_transfer self asset symbol transFrom transTo amount x
        = (Return PyNone,
           [EvSapi "sapi_post_margin_isolated_transfer" (Some payload);
            EvLogWarning
              "Unable to get isolated margin account info. Reason: %s"
              [LErr err]],
           x'))
  /\ (forall (asset isolatedSymbol : string) (payload : Dict),
        payload = <["asset" := PyStr asset]>
                  (<["isolatedSymbol" := PyStr isolatedSymbol]> ∅) ->
        sapi_get_margin_maxborrowable (_api self) payload x
        = (Raise (Ccxt err), x') ->
        query_max_borrow self asset isolatedSymbol x
        = (Return PyNone,
           [EvSapi "sapi_get_margin_maxborrowable" (Some payload);
            EvLogWarning
              "Unable to get isolated margin account info. Reason: %s"
              [LErr err]],
           x')).
Proof.
  split; [| split; [| split]].
  - intros Hf. exact (margin_call_failure _ _ err x x' Hf).
  - intros base quote payload -> Hf.
    exact (margin_call_failure _ _ err x x' Hf).
  - intros asset symbol transFrom transTo amount payload -> Hf.
    exact (margin_call_failure _ _ err x x' Hf).
  - intros asset isolatedSymbol payload -> Hf.
    exact (margin_call_failure _ _ err x x' Hf).
Qed.

(** [query_max_borrow] against a transport that times out. *)
Lemma query_max_borrow_failure_witness :
  query_max_borrow (Demo.exchange false (Demo.failing Demo.timeout))
    "BTC" "BTCUSDT" 0%nat
  = (Return PyNone,
     [EvSapi "sapi_get_margin_maxborrowable"
        (Some (<["asset" := PyStr "BTC"]>
               (<["isolatedSymbol" := PyStr "BTCUSDT"]> ∅)));
      EvLogWarning "Unable to get isolated margin account info. Reason: %s"
        [LErr Demo.timeout]],
     1%nat)
  /\ length
       (List.filter is_warning
          (query_max_borrow (Demo.exchange false (Demo.failing Demo.timeout))
             "BTC" "BTCUSDT" 0%nat).1.2) = 1%nat.
Proof.
  split; [| reflexivity].
  exact (proj2 (proj2 (proj2
           (margin_operations_swallow_ccxt_failures
              (Demo.exchange false (Demo.failing Demo.timeout))
              Demo.timeout 0%nat 1%nat)))
           "BTC" "BTCUSDT" _ eq_refl eq_refl).
Defined.

(** ** The limit ratio *)




(** ** [stoploss_adjust] *)

Lemma eq_str_true (v : pyval) (s : string) :
  eq_str v s = true <-> v = PyStr s.
Proof.
  destruct v; cbn; try (split; [discriminate | intros; discriminate]).
  rewrite String.eqb_eq. split; [intros -> | intros [= ->]]; reflexivity.
Qed.

(** C9.  [stoploss_adjust] returns [True] exactly when the type of the order
    is ['stop_loss_limit'] and the requested stop loss is strictly greater
    than the stop price recorded in the order; for an order of any other
    type it returns [False], whatever the prices (the recorded stop price
    is not even read). *)
Theorem stoploss_adjust_iff (float_of_str : string -> option float)
    (stop_loss : float) (order : Dict) :
  (stoploss_adjust float_of_str stop_loss order = Return true
   <-> order !! "type" = Some (PyStr "stop_loss_limit")
       /\ exists info sp p,
            order !! "info" = Some info
            /\ subscript info "stopPrice" = Return sp
            /\ py_float float_of_str sp = Return p
            /\ PrimFloat.ltb p stop_loss = true)
  /\ (forall ty,
        order !! "type" = Some ty ->
        ty <> PyStr "stop_loss_limit" ->
        stoploss_adjust float_of_str stop_loss order = Return false).
Proof.
  unfold stoploss_adjust, getitem. split.
  - destruct (order !! "type") as [ty |] eqn:Hty; cbn.
    2: { split; [discriminate | intros [[=] _]]. }
    destruct (eq_str ty "stop_loss_limit") eqn:Heq.
    + apply eq_str_true in Heq as ->.
      destruct (order !! "info") as [info |] eqn:Hinfo; cbn.
      2: { split; [discriminate | intros (_ & ? & ? & ? & [=] & _)]. }
      destruct (subscript info "stopPrice") as [sp | e] eqn:Hsp; cbn.
      2: { split; [discriminate |].
           intros (_ & ? & ? & ? & [= <-] & Hsp' & _). congruence. }
      destruct (py_float float_of_str sp) as [p | e] eqn:Hp; cbn.
      2: { split; [discriminate |].
           intros (_ & ? & ? & ? & [= <-] & Hsp' & Hp' & _). congruence. }
      split.
      * intros [= Hlt]. split; [reflexivity |]. eauto 10.
      * intros (_ & ? & ? & ? & [= <-] & Hsp' & Hp' & Hlt).
        congruence.
    + split; [discriminate |]. intros [[= ->] _]. cbn in Heq.
      discriminate Heq.
  - intros ty -> Hne. cbn.
    destruct (eq_str ty "stop_loss_limit") eqn:Heq; [| reflexivity].
    apply eq_str_true in Heq. contradiction.
Qed.

Example stoploss_adjust_examples :
  stoploss_adjust Demo.float_of_str 200
    (Demo.order "stop_loss_limit" "190.0") = Return true
  /\ stoploss_adjust Demo.float_of_str 190
       (Demo.order "stop_loss_limit" "190.0") = Return false
  /\ stoploss_adjust Demo.float_of_str 200
       (Demo.order "stop_loss_limit" "220.5") = Return false
  /\ stoploss_adjust Demo.float_of_str 200 (Demo.order "limit" "190.0")
     = Return false
  /\ stoploss_adjust Demo.float_of_str 200 {[ "type" := PyStr "market" ]}
     = Return false
  /\ stoploss_adjust Demo.float_of_str 200
       {[ "type" := PyStr "stop_loss_limit" ]} = Raise (Builtin KeyError)
  /\ stoploss_adjust Demo.float_of_str 200
       (Demo.order "stop_loss_limit" "n/a") = Raise (Builtin ValueError).
Proof. repeat split; reflexivity. Qed.

(** ** [fetch_l2_order_book] *)

(** C10.  For a requested depth of at most 1000, [fetch_l2_order_book]
    forwards to the base implementation the smallest of
    5, 10, 20, 50, 100, 500, 1000 that is at least the requested depth; for
    a larger depth it raises ([min] of an empty list) without calling the
    base implementation. *)
Theorem fetch_l2_order_book_limit {X} (self : Exchange X) (pair : string)
    (limit : Z) (x : X) :
  ((limit <= 1000)%Z ->
   exists step : Z,
     In step [5; 10; 20; 50; 100; 500; 1000]%Z
     /\ (limit <= step)%Z
     /\ (forall y, In y [5; 10; 20; 50; 100; 500; 1000]%Z ->
                   (limit <= y)%Z -> (step <= y)%Z)
     /\ fetch_l2_order_book self pair limit x
        = match base_fetch_l2_order_book self pair step x with
          | (r, x') => (r, [EvBaseFetchL2OrderBook pair step], x')
          end)
  /\ ((1000 < limit)%Z ->
      fetch_l2_order_book self pair limit x
      = (Raise (Builtin ValueError), [], x)).
Proof.
  unfold fetch_l2_order_book, bind, lift, call. cbn [List.filter].
  destruct (Z.leb_spec limit 5), (Z.leb_spec limit 10),
    (Z.leb_spec limit 20), (Z.leb_spec limit 50), (Z.leb_spec limit 100),
    (Z.leb_spec limit 500), (Z.leb_spec limit 1000); try lia;
    (split; [intros Hle | intros Hgt; first [lia | reflexivity]]);
    try lia; clear Hle; cbn [py_min fold_left];
    match goal with
    | |- context [base_fetch_l2_order_book self pair ?s x] =>
        let s' := eval vm_compute in s in
        change s with s'; exists s'
    end;
    (split; [cbn; tauto |]); (split; [lia |]);
    (split; [cbn; intros y Hy Hle; intuition lia |]);
    destruct (base_fetch_l2_order_book self pair _ x) as [r x']; reflexivity.
Qed.

Example fetch_l2_order_book_examples :
  (fetch_l2_order_book (Demo.exchange false Demo.accepting) "ETH/BTC" 7
     0%nat).1.2 = [EvBaseFetchL2OrderBook "ETH/BTC" 10]
  /\ (fetch_l2_order_book (Demo.exchange false Demo.accepting) "ETH/BTC" 100
        0%nat).1.2 = [EvBaseFetchL2OrderBook "ETH/BTC" 100]
  /\ (fetch_l2_order_book (Demo.exchange false Demo.accepting) "ETH/BTC" (-3)
        0%nat).1.2 = [EvBaseFetchL2OrderBook "ETH/BTC" 5]
  /\ fetch_l2_order_book (Demo.exchange false Demo.accepting) "ETH/BTC" 1001
       0%nat = (Raise (Builtin ValueError), [], 0%nat).
Proof. repeat split; reflexivity. Qed.

(** * Further properties *)

(** ** Comparisons of binary64 floats *)

Ltac cmp_cases :=
  repeat match goal with
  | H : context [(?a ?= ?b)%Z] |- _ => destruct (Z.compare_spec a b)
  | |- context [(?a ?= ?b)%Z] => destruct (Z.compare_spec a b)
  | H : context [Pos.compare_cont Eq ?a ?b] |- _ =>
      change (Pos.compare_cont Eq a b) with (a ?= b)%positive in H;
      destruct (Pos.compare_spec a b)
  | |- context [Pos.compare_cont Eq ?a ?b] =>
      change (Pos.compare_cont Eq a b) with (a ?= b)%positive;
      destruct (Pos.compare_spec a b)
  end.

Ltac sf_cases :=
  repeat match goal with b : bool |- _ => destruct b end; cbn;
  try discriminate; try reflexivity;
  intros; cmp_cases; cbn in *; subst;
  try discriminate; try reflexivity; try lia.

Lemma SFcompare_refl (s : spec_float) :
  s <> S754_nan -> SFcompare s s = Some Eq.
Proof.
  destruct s as [b | b | | b m e]; cbn; try congruence; intros _.
  - destruct b; reflexivity.
  - destruct b; rewrite Z.compare_refl, Pos.compare_cont_refl; reflexivity.
Qed.

Lemma SFleb_not_ltb (x y : spec_float) :
  SFleb x y = true -> SFltb y x = false.
Proof.
  unfold SFltb, SFleb.
  destruct x as [bx | bx | | bx mx ex], y as [b_y | b_y | | b_y my ey]; cbn;
    try discriminate; try reflexivity; sf_cases.
Qed.

Lemma SFltb_leb_trans (x y z : spec_float) :
  SFltb x y = true -> SFleb y z = true -> SFltb x z = true.
Proof.
  unfold SFltb, SFleb.
  destruct x as [bx | bx | | bx mx ex], y as [b_y | b_y | | b_y my ey],
    z as [bz | bz | | bz mz ez]; cbn;
    try discriminate; try reflexivity; sf_cases.
Qed.

(** [a < b] gives [a <= b]. *)
Lemma float_ltb_leb (a b : float) :
  PrimFloat.ltb a b = true -> PrimFloat.leb a b = true.
Proof.
  rewrite ltb_spec, leb_spec. unfold SFltb, SFleb.
  destruct (SFcompare _ _) as [[] |]; congruence.
Qed.

(** [a <= b] excludes [b < a]. *)
Lemma float_leb_not_ltb (a b : float) :
  PrimFloat.leb a b = true -> PrimFloat.ltb b a = false.
Proof. rewrite ltb_spec, leb_spec. apply SFleb_not_ltb. Qed.

Lemma float_ltb_leb_trans (a b c : float) :
  PrimFloat.ltb a b = true -> PrimFloat.leb b c = true ->
  PrimFloat.ltb a c = true.
Proof. rewrite !ltb_spec, leb_spec. apply SFltb_leb_trans. Qed.

(** A NaN is [<=] nothing and nothing is [<=] it. *)
Lemma float_nan_leb (a b : float) :
  PrimFloat.is_nan a = true ->
  PrimFloat.leb a b = false /\ PrimFloat.leb b a = false.
Proof.
  unfold PrimFloat.is_nan. rewrite FloatAxioms.eqb_spec, !leb_spec.
  unfold SFeqb, SFleb. intros Hnan.
  assert (Ha : Prim2SF a = S754_nan).
  { destruct (Prim2SF a) eqn:E; try reflexivity;
      rewrite SFcompare_refl in Hnan by discriminate; discriminate Hnan. }
  rewrite Ha. split; [reflexivity |].
  destruct (Prim2SF b); reflexivity.
Qed.

(** ** The margin operations, beyond ccxt failures *)

Lemma margin_call_success {X} (ev : event) (f : X -> outcome pyval * X)
    (v : pyval) (x x' : X) :
  f x = (Return v, x') ->
  try_except (call ev f) margin_except x = (Return v, [ev], x').
Proof. intros Hf. unfold try_except, call. rewrite Hf. reflexivity. Qed.

Lemma margin_call_foreign {X} (ev : event) (f : X -> outcome pyval * X)
    (e : exception) (x x' : X) :
  (forall err, e <> Ccxt err) ->
  f x = (Raise e, x') ->
  try_except (call ev f) margin_except x = (Raise e, [ev], x').
Proof.
  intros Hne Hf. unfold try_except, call, margin_except, raise. rewrite Hf.
  destruct e as [err | c | k m c]; [destruct (Hne err eq_refl) | |];
    reflexivity.
Qed.

(** X1.  When the transport call of a margin operation returns, the
    operation returns that response unchanged, after exactly that one call
    and without logging anything. *)
Theorem margin_operations_return_response {X} (self : Exchange X)
    (v : pyval) (x x' : X) :
  (sapi_get_margin_isolated_account (_api self) x = (Return v, x') ->
   get_isolated_margin_account self x
   = (Return v, [EvSapi "sapi_get_margin_isolated_account" None], x'))
  /\ (forall (base quote : string) (payload : Dict),
        payload = <["base" := PyStr base]> (<["quote" := PyStr quote]> ∅) ->
        sapi_post_margin_isolated_create (_api self) payload x
        = (Return v, x') ->
        create_isolated_margin_account self base quote x
        = (Return v,
           [EvSapi "sapi_post_margin_isolated_create" (Some payload)], x'))
  /\ (forall (asset symbol transFrom transTo : string) (amount : float)
             (payload : Dict),
        payload = <["asset" := PyStr asset]>
                  (<["symbol" := PyStr symbol]>
                  (<["transFrom" := PyStr transFrom]>
                  (<["transTo" := PyStr transTo]>
                  (<["amount" := PyFloat amount]> ∅)))) ->
        sapi_post_margin_isolated_transfer (_api self) payload x
        = (Return v, x') ->
        isolated_margin_transfer self asset symbol transFrom transTo amount x
        = (Return v,
           [EvSapi "sapi_post_margin_isolated_transfer" (Some payload)], x'))
  /\ (forall (asset isolatedSymbol : string) (payload : Dict),
        payload = <["asset" := PyStr asset]>
                  (<["isolatedSymbol" := PyStr isolatedSymbol]> ∅) ->
        sapi_get_margin_maxborrowable (_api self) payload x
        = (Return v, x') ->
        query_max_borrow self asset isolatedSymbol x
        = (Return v,
           [EvSapi "sapi_get_margin_maxborrowable" (Some payload)], x')).
Proof.
  split; [| split; [| split]].
  - intros Hf. exact (margin_call_success _ _ v x x' Hf).
  - intros base quote payload -> Hf.
    exact (margin_call_success _ _ v x x' Hf).
  - intros asset symbol transFrom transTo amount payload -> Hf.
    exact (margin_call_success _ _ v x x' Hf).
  - intros asset isolatedSymbol payload -> Hf.
    exact (margin_call_success _ _ v x x' Hf).
Qed.

Lemma margin_operations_return_response_witness :
  isolated_margin_transfer (Demo.exchange false Demo.accepting)
    "BTC" "BTCUSDT" "SPOT" "ISOLATED_MARGIN" 0.5 0%nat
  = (Return (PyDict ∅),
     [EvSapi "sapi_post_margin_isolated_transfer"
        (Some (<["asset" := PyStr "BTC"]>
               (<["symbol" := PyStr "BTCUSDT"]>
               (<["transFrom" := PyStr "SPOT"]>
               (<["transTo" := PyStr "ISOLATED_MARGIN"]>
               (<["amount" := PyFloat 0.5]> ∅))))))],
     1%nat).
Proof.
  exact (proj1 (proj2 (proj2
           (margin_operations_return_response
              (Demo.exchange false Demo.accepting) (PyDict ∅) 0%nat 1%nat)))
           "BTC" "BTCUSDT" "SPOT" "ISOLATED_MARGIN" 0.5%float _
           eq_refl eq_refl).
Defined.

(** X2.  The handler of the margin operations catches ccxt exceptions only:
    when the transport call raises any other exception, the operation
    raises that same exception, and logs no warning. *)
Theorem margin_operations_propagate_other_exceptions {X} (self : Exchange X)
    (e : exception) (x x' : X) :
  (forall err, e <> Ccxt err) ->
  (sapi_get_margin_isolated_account (_api self) x = (Raise e, x') ->
   get_isolated_margin_account self x
   = (Raise e, [EvSapi "sapi_get_margin_isolated_account" None], x'))
  /\ (forall (base quote : string) (payload : Dict),
        payload = <["base" := PyStr base]> (<["quote" := PyStr quote]> ∅) ->
        sapi_post_margin_isolated_create (_api self) payload x
        = (Raise e, x') ->
        create_isolated_margin_account self base quote x
        = (Raise e,
           [EvSapi "sapi_post_margin_isolated_create" (Some payload)], x'))
  /\ (forall (asset symbol transFrom transTo : string) (amount : float)
             (payload : Dict),
        payload = <["asset" := PyStr asset]>
                  (<["symbol" := PyStr symbol]>
                  (<["transFrom" := PyStr transFrom]>
                  (<["transTo" := PyStr transTo]>
                  (<["amount" := PyFloat amount]> ∅)))) ->
        sapi_post_margin_isolated_transfer (_api self) payload x
        = (Raise e, x') ->
        isolated_margin_transfer self asset symbol transFrom transTo amount x
        = (Raise e,
           [EvSapi "sapi_post_margin_isolated_transfer" (Some payload)], x'))
  /\ (forall (asset isolatedSymbol : string) (payload : Dict),
        payload = <["asset" := PyStr asset]>
                  (<["isolatedSymbol" := PyStr isolatedSymbol]> ∅) ->
        sapi_get_margin_maxborrowable (_api self) payload x
        = (Raise e, x') ->
        query_max_borrow self asset isolatedSymbol x
        = (Raise e,
           [EvSapi "sapi_get_margin_maxborrowable" (Some payload)], x')).
Proof.
  intros Hne. split; [| split; [| split]].
  - intros Hf. exact (margin_call_foreign _ _ e x x' Hne Hf).
  - intros base quote payload -> Hf.
    exact (margin_call_foreign _ _ e x x' Hne Hf).
  - intros asset symbol transFrom transTo amount payload -> Hf.
    exact (margin_call_foreign _ _ e x x' Hne Hf).
  - intros asset isolatedSymbol payload -> Hf.
    exact (margin_call_foreign _ _ e x x' Hne Hf).
Qed.

Lemma margin_operations_propagate_other_exceptions_witness :
  query_max_borrow
    (Demo.exchange false (Exact.raising (Builtin TypeError)))
    "BTC" "BTCUSDT" 0%nat
  = (Raise (Builtin TypeError),
     [EvSapi "sapi_get_margin_maxborrowable"
        (Some (<["asset" := PyStr "BTC"]>
               (<["isolatedSymbol" := PyStr "BTCUSDT"]> ∅)))],
     1%nat).
Proof.
  refine (proj2 (proj2 (proj2
            (margin_operations_propagate_other_exceptions
               (Demo.exchange false (Exact.raising (Builtin TypeError)))
               (Builtin TypeError) 0%nat 1%nat _)))
            "BTC" "BTCUSDT" _ eq_refl eq_refl).
  intros err. discriminate.
Defined.

Lemma float_not_leb_ltb (a b : float) :
  PrimFloat.is_nan a = false -> PrimFloat.is_nan b = false ->
  PrimFloat.leb a b = false -> PrimFloat.ltb b a = true.
Proof.
  unfold PrimFloat.is_nan.
  rewrite !FloatAxioms.eqb_spec, leb_spec, ltb_spec.
  unfold SFeqb, SFleb, SFltb.
  destruct (Prim2SF a) as [ba | ba | | ba ma ea],
    (Prim2SF b) as [bb | bb | | bb mb eb]; cbn;
    try discriminate; try reflexivity; sf_cases.
Qed.

(** ** [stoploss], beyond the classified failures *)

(** The events and the state of a live run, whatever the transport
    answers. *)
Lemma stoploss_live_run {X} (self : Exchange X) (pair : string)
    (amount stop_price rate : float) (order_types : Dict) (v : pyval)
    (x : X) :
  stoploss_rate stop_price order_types = Return rate ->
  PrimFloat.leb (price_to_precision self pair stop_price) rate = false ->
  _config self !! "dry_run" = Some v ->
  truthy v = false ->
  exists r t,
    stoploss self pair amount stop_price order_types x
    = (r, live_prefix self pair amount stop_price rate ++ t,
       (create_order (_api self)
          (stop_limit_sell_request self pair amount stop_price rate) x).2)
    /\ requests_of t = [] /\ List.filter is_create_order t = [].
Proof.
  intros Hrate Hle Hcfg Hdry.
  rewrite (stoploss_live self pair amount stop_price rate _ Hrate x v
             Hle Hcfg Hdry).
  destruct (create_order _ _ x) as [[order | e] x']; cbn.
  - eexists _, [_]. split; [reflexivity |]. split; reflexivity.
  - destruct (stoploss_except_raises "stop_loss_limit" pair
                (amount_to_precision self pair amount)
                (price_to_precision self pair rate) e x') as [e' ->].
    eexists _, []. split; [reflexivity |]. split; reflexivity.
Qed.

(** X3.  The handlers of [stoploss] name ccxt classes only: when the
    transport call raises any other exception, [stoploss] raises that same
    exception, unclassified, after the one request and without logging. *)
Theorem stoploss_propagates_other_exceptions {X} (self : Exchange X)
    (pair : string) (amount stop_price rate : float) (order_types : Dict)
    (v : pyval) (e : exception) (x x' : X) :
  stoploss_rate stop_price order_types = Return rate ->
  PrimFloat.leb (price_to_precision self pair stop_price) rate = false ->
  _config self !! "dry_run" = Some v ->
  truthy v = false ->
  (forall err, e <> Ccxt err) ->
  create_order (_api self)
    (stop_limit_sell_request self pair amount stop_price rate) x
  = (Raise e, x') ->
  stoploss self pair amount stop_price order_types x
  = (Raise e,
     [EvPriceToPrecision pair stop_price;
      EvAmountToPrecision pair amount;
      EvPriceToPrecision pair rate;
      EvCreateOrder (stop_limit_sell_request self pair amount stop_price rate)],
     x').
Proof.
  intros Hrate Hle Hcfg Hdry Hne Hcreate.
  rewrite (stoploss_live self pair amount stop_price rate _ Hrate x v
             Hle Hcfg Hdry), Hcreate.
  destruct e as [err | c | k m c]; [destruct (Hne err eq_refl) | |];
    reflexivity.
Qed.

Lemma stoploss_propagates_other_exceptions_witness :
  stoploss (Demo.exchange false (Exact.raising (Builtin KeyError)))
    "ETH/BTC" 1 100 ∅ 0%nat
  = (Raise (Builtin KeyError),
     [EvPriceToPrecision "ETH/BTC" 100;
      EvAmountToPrecision "ETH/BTC" 1;
      EvPriceToPrecision "ETH/BTC" 99;
      EvCreateOrder
        (stop_limit_sell_request
           (Demo.exchange false (Exact.raising (Builtin KeyError)))
           "ETH/BTC" 1 100 99)],
     1%nat).
Proof.
  apply (stoploss_propagates_other_exceptions
           (Demo.exchange false (Exact.raising (Builtin KeyError)))
           "ETH/BTC" 1 100 99 ∅ (PyBool false) (Builtin KeyError)
           0%nat 1%nat); try reflexivity.
  intros err. discriminate.
Defined.


(** X5.  When the configuration has no ['dry_run'] key, [stoploss] raises
    [KeyError] after normalizing the stop price, unless the check fails
    first: the check comes before the configuration is read.  Either way
    nothing is sent. *)
Theorem stoploss_missing_dry_run_key {X} (self : Exchange X) (pair : string)
    (amount stop_price rate : float) (order_types : Dict) (x : X) :
  stoploss_rate stop_price order_types = Return rate ->
  _config self !! "dry_run" = None ->
  stoploss self pair amount stop_price order_types x
  = (Raise (if PrimFloat.leb (price_to_precision self pair stop_price) rate
            then stop_below_limit
            else Builtin KeyError),
     [EvPriceToPrecision pair stop_price], x).
Proof.
  intros Hrate Hcfg. unfold stoploss, bind, lift, pure_call, getitem, raise.
  rewrite Hrate. cbn.
  destruct (PrimFloat.leb _ rate); [reflexivity |].
  rewrite Hcfg. reflexivity.
Qed.

Lemma stoploss_missing_dry_run_key_witness :
  stoploss (Exact.exchange ∅ Demo.accepting) "ETH/BTC" 1 100 ∅ 0%nat
  = (Raise (Builtin KeyError), [EvPriceToPrecision "ETH/BTC" 100], 0%nat)
  /\ stoploss (Exact.exchange ∅ Demo.accepting) "ETH/BTC" 1 100
       (Demo.ratio 1) 0%nat
     = (Raise stop_below_limit, [EvPriceToPrecision "ETH/BTC" 100], 0%nat).
Proof.
  split.
  - exact (stoploss_missing_dry_run_key (Exact.exchange ∅ Demo.accepting)
             "ETH/BTC" 1 100 99 ∅ 0%nat eq_refl eq_refl).
  - exact (stoploss_missing_dry_run_key (Exact.exchange ∅ Demo.accepting)
             "ETH/BTC" 1 100 100 (Demo.ratio 1) 0%nat eq_refl eq_refl).
Defined.

(** X6.  When the order-type options give a limit ratio that is not a
    number ([None], a string or a dict), [stoploss] raises [TypeError]
    before anything else happens: no price is normalized, nothing is
    checked, recorded or sent. *)
Theorem stoploss_non_numeric_ratio {X} (self : Exchange X) (pair : string)
    (amount stop_price : float) (order_types : Dict) (v : pyval) (x : X) :
  order_types !! "stoploss_on_exchange_limit_ratio" = Some v ->
  (forall f, v <> PyFloat f) ->
  (forall b, v <> PyBool b) ->
  stoploss self pair amount stop_price order_types x
  = (Raise (Builtin TypeError), [], x).
Proof.
  intros Hv Hf Hb. unfold stoploss, bind, lift, stoploss_rate, dict_get.
  rewrite Hv. cbn.
  destruct v as [| b | f | s | d]; try reflexivity.
  - destruct (Hb b eq_refl).
  - destruct (Hf f eq_refl).
Qed.

Lemma stoploss_non_numeric_ratio_witness :
  stoploss (Demo.exchange false Demo.accepting) "ETH/BTC" 1 100
    {[ "stoploss_on_exchange_limit_ratio" := PyStr "0.99" ]} 0%nat
  = (Raise (Builtin TypeError), [], 0%nat).
Proof.
  apply (stoploss_non_numeric_ratio (Demo.exchange false Demo.accepting)
           "ETH/BTC" 1 100
           {[ "stoploss_on_exchange_limit_ratio" := PyStr "0.99" ]}
           (PyStr "0.99") 0%nat);
    [reflexivity | discriminate | discriminate].
Defined.

(** X7.  On a market whose price normalization is idempotent and monotone,
    every order request that [stoploss] sends for numbers (no NaN) has its
    limit price at or below its trigger price: the check on the raw limit
    price carries over to the normalized one, though not strictly. *)
Theorem stoploss_limit_not_above_trigger {X} (self : Exchange X)
    (pair : string) (amount stop_price rate : float) (order_types : Dict)
    (x : X) :
  (forall p, price_to_precision self pair (price_to_precision self pair p)
             = price_to_precision self pair p) ->
  (forall p q, PrimFloat.leb p q = true ->
               PrimFloat.leb (price_to_precision self pair p)
                 (price_to_precision self pair q) = true) ->
  stoploss_rate stop_price order_types = Return rate ->
  PrimFloat.is_nan rate = false ->
  PrimFloat.is_nan (price_to_precision self pair stop_price) = false ->
  forall req,
    In req (requests_of (stoploss self pair amount stop_price order_types x).1.2) ->
    exists trigger,
      rq_params req !! "stopPrice" = Some (PyFloat trigger)
      /\ PrimFloat.leb (rq_price req) trigger = true.
Proof.
  intros Hidem Hmono Hrate Hn1 Hn2 req.
  destruct (PrimFloat.leb (price_to_precision self pair stop_price) rate)
    eqn:Hle.
  { rewrite (stoploss_rejected self pair amount stop_price rate _ Hrate x
               Hle). intros []. }
  destruct (_config self !! "dry_run") as [v |] eqn:Hcfg.
  - destruct (truthy v) eqn:Hdry.
    { rewrite (stoploss_dry self pair amount stop_price rate _ Hrate x v
                 Hle Hcfg Hdry). intros []. }
    destruct (stoploss_live_run self pair amount stop_price rate _ v x
                Hrate Hle Hcfg Hdry) as (r & t & -> & Ht & _).
    unfold requests_of in *. cbn. rewrite Ht. intros [<- | []].
    exists (price_to_precision self pair stop_price). split.
    + cbn. apply lookup_insert_eq.
    + cbn. rewrite <- (Hidem stop_price). apply Hmono.
      apply float_ltb_leb, float_not_leb_ltb; assumption.
  - unfold stoploss, bind, lift, pure_call, getitem.
    rewrite Hrate. cbn. rewrite Hle, Hcfg. cbn. intros [].
Qed.

Lemma stoploss_limit_not_above_trigger_witness :
  exists trigger,
    rq_params
      (stop_limit_sell_request (Exact.exchange Exact.live Demo.accepting)
         "ETH/BTC" 1 100 99) !! "stopPrice" = Some (PyFloat trigger)
    /\ PrimFloat.leb
         (rq_price
            (stop_limit_sell_request
               (Exact.exchange Exact.live Demo.accepting) "ETH/BTC" 1 100 99))
         trigger = true.
Proof.
  apply (stoploss_limit_not_above_trigger
           (Exact.exchange Exact.live Demo.accepting) "ETH/BTC" 1 100 99 ∅
           0%nat);
    [intros p; reflexivity | intros p q H; exact H | reflexivity
    | reflexivity | reflexivity | left; reflexivity].
Defined.

(** The limit price can equal the trigger price: tick size 1, stop price
    100.375, ratio 255/256. *)
Example stoploss_limit_may_equal_trigger :
  map (fun req => (rq_price req, rq_params req !! "stopPrice"))
    (requests_of
       (stoploss (Demo.exchange false Demo.accepting) "ETH/BTC" 1 100.375
          (Demo.ratio 0.99609375) 0%nat).1.2)
  = [(100%float, Some (PyFloat 100))].
Proof. reflexivity. Qed.

(** X8.  The check does not reject a NaN: when the normalized stop price or
    the raw limit price is NaN, the comparison is false, and in live mode
    the order request is sent all the same. *)
Theorem stoploss_nan_passes_check {X} (self : Exchange X) (pair : string)
    (amount stop_price rate : float) (order_types : Dict) (v : pyval)
    (x : X) :
  stoploss_rate stop_price order_types = Return rate ->
  PrimFloat.is_nan (price_to_precision self pair stop_price) = true
  \/ PrimFloat.is_nan rate = true ->
  _config self !! "dry_run" = Some v ->
  truthy v = false ->
  requests_of (stoploss self pair amount stop_price order_types x).1.2
  = [stop_limit_sell_request self pair amount stop_price rate].
Proof.
  intros Hrate Hnan Hcfg Hdry.
  assert (Hle : PrimFloat.leb (price_to_precision self pair stop_price) rate
                = false).
  { destruct Hnan as [Hnan | Hnan].
    - exact (proj1 (float_nan_leb _ rate Hnan)).
    - exact (proj2 (float_nan_leb _ (price_to_precision self pair stop_price)
                      Hnan)). }
  destruct (stoploss_live_run self pair amount stop_price rate _ v x
              Hrate Hle Hcfg Hdry) as (r & t & -> & Ht & _).
  unfold requests_of in *. cbn. rewrite Ht. reflexivity.
Qed.

Lemma stoploss_nan_passes_check_witness :
  requests_of
    (stoploss (Exact.exchange Exact.live Demo.accepting) "ETH/BTC" 1
       PrimFloat.nan ∅ 0%nat).1.2
  = [stop_limit_sell_request (Exact.exchange Exact.live Demo.accepting)
       "ETH/BTC" 1 PrimFloat.nan PrimFloat.nan].
Proof.
  apply (stoploss_nan_passes_check
           (Exact.exchange Exact.live Demo.accepting) "ETH/BTC" 1
           PrimFloat.nan PrimFloat.nan ∅ (PyBool false) 0%nat);
    [reflexivity | left; reflexivity | reflexivity | reflexivity].
Defined.

(** ** [fetch_l2_order_book]: the forwarded depth *)

Lemma fetch_l2_order_book_allowed {X} (self : Exchange X) (pair : string)
    (s : Z) (x : X) :
  In s [5; 10; 20; 50; 100; 500; 1000]%Z ->
  fetch_l2_order_book self pair s x
  = match base_fetch_l2_order_book self pair s x with
    | (r, x') => (r, [EvBaseFetchL2OrderBook pair s], x')
    end.
Proof.
  cbn. intros H.
  repeat (destruct H as [<- | H];
          [unfold fetch_l2_order_book, bind, lift, call; cbn;
           destruct (base_fetch_l2_order_book self pair _ x); reflexivity |]).
  destruct H.
Qed.

Lemma fetch_l2_order_book_forwards {X} (self : Exchange X) (pair : string)
    (limit : Z) (x : X) :
  (exists step : Z,
     In step [5; 10; 20; 50; 100; 500; 1000]%Z
     /\ (limit <= step)%Z
     /\ (forall y, In y [5; 10; 20; 50; 100; 500; 1000]%Z ->
                   (limit <= y)%Z -> (step <= y)%Z)
     /\ depths_of (fetch_l2_order_book self pair limit x).1.2 = [step])
  \/ ((1000 < limit)%Z
      /\ depths_of (fetch_l2_order_book self pair limit x).1.2 = []).
Proof.
  unfold fetch_l2_order_book, bind, lift, call. cbn [List.filter].
  destruct (Z.leb_spec limit 5), (Z.leb_spec limit 10),
    (Z.leb_spec limit 20), (Z.leb_spec limit 50), (Z.leb_spec limit 100),
    (Z.leb_spec limit 500), (Z.leb_spec limit 1000); try lia;
    [left .. | right; split; [lia | reflexivity]];
    cbn [py_min fold_left];
    match goal with
    | |- context [base_fetch_l2_order_book self pair ?s x] =>
        let s' := eval vm_compute in s in
        change s with s'; exists s'
    end;
    (split; [cbn; tauto |]); (split; [lia |]);
    (split; [cbn; intros y Hy Hle; intuition lia |]);
    destruct (base_fetch_l2_order_book self pair _ x) as [r x']; reflexivity.
Qed.

(** X9.  Each of the depths 5, 10, 20, 50, 100, 500, 1000 is forwarded to
    the base implementation as it is, and snapping is idempotent: the depth
    forwarded for any request is forwarded unchanged when it is requested
    itself. *)
Theorem fetch_l2_order_book_idempotent {X} (self : Exchange X)
    (pair : string) (x : X) :
  (forall s, In s [5; 10; 20; 50; 100; 500; 1000]%Z ->
     fetch_l2_order_book self pair s x
     = match base_fetch_l2_order_book self pair s x with
       | (r, x') => (r, [EvBaseFetchL2OrderBook pair s], x')
       end)
  /\ (forall (pair0 : string) (limit step : Z) (x0 : X),
        depths_of (fetch_l2_order_book self pair0 limit x0).1.2 = [step] ->
        fetch_l2_order_book self pair step x
        = match base_fetch_l2_order_book self pair step x with
          | (r, x') => (r, [EvBaseFetchL2OrderBook pair step], x')
          end).
Proof.
  split; [intros s Hs; exact (fetch_l2_order_book_allowed self pair s x Hs) |].
  intros pair0 limit step x0 Hd.
  destruct (fetch_l2_order_book_forwards self pair0 limit x0)
    as [(step' & Hin & _ & _ & Hd') | [_ Hd']]; rewrite Hd' in Hd.
  - injection Hd as <-. exact (fetch_l2_order_book_allowed self pair _ x Hin).
  - discriminate Hd.
Qed.

(** X10.  Snapping is monotone: a deeper request is never forwarded with a
    smaller depth. *)
Theorem fetch_l2_order_book_monotone {X} (self : Exchange X)
    (pair1 pair2 : string) (limit1 limit2 step1 step2 : Z) (x1 x2 : X) :
  (limit1 <= limit2)%Z ->
  depths_of (fetch_l2_order_book self pair1 limit1 x1).1.2 = [step1] ->
  depths_of (fetch_l2_order_book self pair2 limit2 x2).1.2 = [step2] ->
  (step1 <= step2)%Z.
Proof.
  intros Hle H1 H2.
  destruct (fetch_l2_order_book_forwards self pair1 limit1 x1)
    as [(s1 & _ & _ & Hmin & Hd1) | [_ Hd1]]; rewrite Hd1 in H1;
    [| discriminate H1].
  destruct (fetch_l2_order_book_forwards self pair2 limit2 x2)
    as [(s2 & Hin2 & Hge2 & _ & Hd2) | [_ Hd2]]; rewrite Hd2 in H2;
    [| discriminate H2].
  injection H1 as <-. injection H2 as <-.
  apply Hmin; [exact Hin2 | lia].
Qed.

Lemma fetch_l2_order_book_monotone_witness :
  depths_of
    (fetch_l2_order_book (Demo.exchange false Demo.accepting) "ETH/BTC" 7
       0%nat).1.2 = [10%Z]
  /\ depths_of
       (fetch_l2_order_book (Demo.exchange false Demo.accepting) "ETH/BTC" 60
          5%nat).1.2 = [100%Z]
  /\ (10 <= 100)%Z.
Proof.
  split; [reflexivity |]. split; [reflexivity |].
  exact (fetch_l2_order_book_monotone (Demo.exchange false Demo.accepting)
           "ETH/BTC" "ETH/BTC" 7 60 10 100 0%nat 5%nat
           ltac:(lia) eq_refl eq_refl).
Defined.

(** ** [stoploss_adjust]: errors and order *)

(** [stoploss_adjust] on an order of type ['stop_loss_limit'] whose recorded
    stop price reads as [p]. *)
Lemma stoploss_adjust_recorded (float_of_str : string -> option float)
    (stop_loss p : float) (order : Dict) (info sp : pyval) :
  order !! "type" = Some (PyStr "stop_loss_limit") ->
  order !! "info" = Some info ->
  subscript info "stopPrice" = Return sp ->
  py_float float_of_str sp = Return p ->
  stoploss_adjust float_of_str stop_loss order
  = Return (PrimFloat.ltb p stop_loss).
Proof.
  intros Hty Hinfo Hsp Hp. unfold stoploss_adjust, getitem.
  rewrite Hty. cbn. rewrite Hinfo. cbn. rewrite Hsp. cbn. rewrite Hp.
  reflexivity.
Qed.

(** X11.  [stoploss_adjust] raises [KeyError] exactly when the order has no
    ['type'], or is of type ['stop_loss_limit'] and has no ['info'] or an
    ['info'] dict without ['stopPrice']. *)
Theorem stoploss_adjust_key_error (float_of_str : string -> option float)
    (stop_loss : float) (order : Dict) :
  stoploss_adjust float_of_str stop_loss order = Raise (Builtin KeyError)
  <-> order !! "type" = None
      \/ (order !! "type" = Some (PyStr "stop_loss_limit")
          /\ (order !! "info" = None
              \/ exists d, order !! "info" = Some (PyDict d)
                           /\ d !! "stopPrice" = None)).
Proof.
  unfold stoploss_adjust, getitem.
  destruct (order !! "type") as [ty |] eqn:Hty; cbn.
  2: { split; [auto | reflexivity]. }
  destruct (eq_str ty "stop_loss_limit") eqn:Heq.
  2: { split; [discriminate |]. intros [[=] | [[= ->] _]].
       cbn in Heq. discriminate Heq. }
  apply eq_str_true in Heq as ->.
  destruct (order !! "info") as [info |] eqn:Hinfo; cbn.
  2: { split; [auto | reflexivity]. }
  destruct info as [| b | f | s | d]; cbn;
    try (split; [discriminate |];
         intros [[=] | [_ [[=] | (d' & [=] & _)]]]).
  unfold getitem. destruct (d !! "stopPrice") as [sp |] eqn:Hsp; cbn.
  - split.
    + destruct sp as [| b | f | s | d']; cbn; try discriminate.
      destruct (float_of_str s); discriminate.
    + intros [[=] | [_ [[=] | (d' & [= <-] & Hnone)]]]. congruence.
  - split; [eauto 10 | reflexivity].
Qed.

(** X12.  [stoploss_adjust] never asks for an adjustment when the requested
    stop loss is at or below the recorded stop price: it returns [False]. *)
Theorem stoploss_adjust_not_below (float_of_str : string -> option float)
    (stop_loss p : float) (order : Dict) (info sp : pyval) :
  order !! "type" = Some (PyStr "stop_loss_limit") ->
  order !! "info" = Some info ->
  subscript info "stopPrice" = Return sp ->
  py_float float_of_str sp = Return p ->
  PrimFloat.leb stop_loss p = true ->
  stoploss_adjust float_of_str stop_loss order = Return false.
Proof.
  intros Hty Hinfo Hsp Hp Hle.
  rewrite (stoploss_adjust_recorded float_of_str stop_loss p order info sp
             Hty Hinfo Hsp Hp).
  rewrite (float_leb_not_ltb _ _ Hle). reflexivity.
Qed.

Lemma stoploss_adjust_not_below_witness :
  stoploss_adjust Demo.float_of_str 190
    (Demo.order "stop_loss_limit" "190.0") = Return false.
Proof.
  exact (stoploss_adjust_not_below Demo.float_of_str 190 190
           (Demo.order "stop_loss_limit" "190.0")
           (PyDict {[ "stopPrice" := PyStr "190.0" ]}) (PyStr "190.0")
           eq_refl eq_refl eq_refl eq_refl eq_refl).
Defined.

(** X13.  [stoploss_adjust] is monotone in the requested stop loss: if it
    asks for an adjustment at some stop loss, it does so at every higher
    one; if it returns [False] at some stop loss, it does so at every lower
    one. *)
Theorem stoploss_adjust_monotone (float_of_str : string -> option float)
    (stop_loss stop_loss' : float) (order : Dict) :
  PrimFloat.leb stop_loss stop_loss' = true ->
  (stoploss_adjust float_of_str stop_loss order = Return true ->
   stoploss_adjust float_of_str stop_loss' order = Return true)
  /\ (stoploss_adjust float_of_str stop_loss' order = Return false ->
      stoploss_adjust float_of_str stop_loss order = Return false).
Proof.
  intros Hle. unfold stoploss_adjust, getitem.
  destruct (order !! "type") as [ty |]; cbn; [| split; discriminate].
  destruct (eq_str ty "stop_loss_limit"); [| split; intros; assumption].
  destruct (order !! "info") as [info |]; cbn; [| split; discriminate].
  destruct (subscript info "stopPrice") as [sp | e]; cbn;
    [| split; discriminate].
  destruct (py_float float_of_str sp) as [p | e]; cbn;
    [| split; discriminate].
  split.
  - intros [= Hlt]. rewrite (float_ltb_leb_trans _ _ _ Hlt Hle). reflexivity.
  - intros [= Hnlt].
    destruct (PrimFloat.ltb p stop_loss) eqn:Hlt; [| reflexivity].
    rewrite (float_ltb_leb_trans _ _ _ Hlt Hle) in Hnlt. discriminate Hnlt.
Qed.

Lemma stoploss_adjust_monotone_witness :
  stoploss_adjust Demo.float_of_str 250
    (Demo.order "stop_loss_limit" "190.0") = Return true.
Proof.
  exact (proj1 (stoploss_adjust_monotone Demo.float_of_str 200 250
                  (Demo.order "stop_loss_limit" "190.0") eq_refl) eq_refl).
Defined.

(** ** [stoploss]: what the error message reports *)

(** X14.  When the transport rejects the order for insufficient funds or as
    invalid, the message of the exception that [stoploss] raises carries the
    order type, the pair, the amount and the rate of the request that was
    sent, that is the normalized amount and limit price, not the figures
    the caller passed. *)
Theorem stoploss_message_reports_request {X} (self : Exchange X)
    (pair : string) (amount stop_price rate : float) (order_types : Dict)
    (v : pyval) (err : ccxt.error) (x x' : X) :
  stoploss_rate stop_price order_types = Return rate ->
  PrimFloat.leb (price_to_precision self pair stop_price) rate = false ->
  _config self !! "dry_run" = Some v ->
  truthy v = false ->
  ccxt.issubclass (ccxt.cls err) ccxt.InsufficientFunds
  || ccxt.issubclass (ccxt.cls err) ccxt.InvalidOrder = true ->
  create_order (_api self)
    (stop_limit_sell_request self pair amount stop_price rate) x
  = (Raise (Ccxt err), x') ->
  exists k head req,
    requests_of (stoploss self pair amount stop_price order_types x).1.2
    = [req]
    /\ (stoploss self pair amount stop_price order_types x).1.1
       = Raise (Freqtrade k
                  (CreateFailed head (rq_type req) (rq_symbol req)
                     (rq_amount req) (rq_price req) err)
                  (Some err))
    /\ rq_amount req = amount_to_precision self pair amount
    /\ rq_price req = price_to_precision self pair rate.
Proof.
  intros Hrate Hle Hcfg Hdry Hcls Hcreate.
  rewrite (stoploss_live self pair amount stop_price rate _ Hrate x v
             Hle Hcfg Hdry), Hcreate.
  destruct err as [c msg].
  destruct c; try discriminate Hcls; cbn;
    eexists _, _, _; (split; [reflexivity |]);
    (split; [reflexivity |]); split; reflexivity.
Qed.

Lemma stoploss_message_reports_request_witness :
  exists k head req,
    requests_of
      (stoploss
         (Demo.exchange false
            (Demo.failing (ccxt.Error ccxt.InsufficientFunds "no balance")))
         "ETH/BTC" 1.25 100.375 ∅ 0%nat).1.2
    = [req]
    /\ (stoploss
          (Demo.exchange false
             (Demo.failing (ccxt.Error ccxt.InsufficientFunds "no balance")))
          "ETH/BTC" 1.25 100.375 ∅ 0%nat).1.1
       = Raise (Freqtrade k
                  (CreateFailed head (rq_type req) (rq_symbol req)
                     (rq_amount req) (rq_price req)
                     (ccxt.Error ccxt.InsufficientFunds "no balance"))
                  (Some (ccxt.Error ccxt.InsufficientFunds "no balance")))
    /\ rq_amount req = Demo.round_tick 1.25
    /\ rq_price req
       = Demo.round_tick (PrimFloat.mul 100.375 default_limit_ratio).
Proof.
  apply (stoploss_message_reports_request
           (Demo.exchange false
              (Demo.failing (ccxt.Error ccxt.InsufficientFunds "no balance")))
           "ETH/BTC" 1.25 100.375
           (PrimFloat.mul 100.375 default_limit_ratio) ∅ (PyBool false)
           (ccxt.Error ccxt.InsufficientFunds "no balance") 0%nat 1%nat);
    reflexivity.
Defined.
